(** * gpt_oss_120b_server.py: loader, generation endpoint and chat wiring

    A shallow embedding of the script.  The script has three parts:
    the statements of lines 15-35 that load the tokenizer and the model,
    the function [generate] of lines 37-48, and the wiring of lines 50-59
    that hands [generate] to the chat widget and starts the web server.

    What the script calls in [transformers], [torch] and [gradio] is not
    part of the repository.  Its data (vocabulary, weights, the answers of
    the remote hub, the random draws) and its failures (a load, a
    tokenization, a sampling step, a decoding, the start of the web server
    may each raise) are parameters of the development, gathered in the
    class [Transformers]; what these calls do with the data is modelled
    from the specification and marked as such. *)

From Stdlib Require Import ZArith String Floats Lia.
From stdpp Require Import base option list strings gmap.

Set Warnings "-inexact-float".

(** ** Values of the Python program *)

(** A vocabulary index. *)
Definition token : Type := Z.

(** The exceptions that reach the embedding. *)
Inductive exn : Type :=
| NetworkError
| AuthorizationError
| OutOfMemoryError
| ValueError
| OSError
| IndexError.

Inductive result (A : Type) : Type :=
| Ok (a : A)
| Raise (e : exn).
Arguments Ok {A} a.
Arguments Raise {A} e.

Definition is_ok {A} (r : result A) : bool :=
  match r with Ok _ => true | Raise _ => false end.

(** [torch.dtype], as far as the script names it. *)
Inductive dtype : Type := float32 | float16 | bfloat16.

Definition dtype_bits (d : dtype) : nat :=
  match d with float32 => 32 | float16 => 16 | bfloat16 => 16 end.

(** The precision of a checkpoint loaded with no [torch_dtype]. *)
Definition torch_default_dtype : dtype := float32.

(** Keyword arguments of [AutoTokenizer.from_pretrained] (lines 19-24). *)
Record tokenizer_kwargs : Type := {
  tk_model_id : string;
  tk_use_fast : bool;
  tk_trust_remote_code : bool;
  tk_token : option string
}.

(** Keyword arguments of [AutoModelForCausalLM.from_pretrained]
    (lines 27-33). *)
Record model_kwargs : Type := {
  mk_model_id : string;
  mk_torch_dtype : dtype;
  mk_device_map : string;
  mk_trust_remote_code : bool;
  mk_token : option string
}.

(** The chat widget's record of earlier turns: (user, assistant) pairs. *)
Definition History : Type := list (string * string).

(** ** The libraries, as an interface

    [hub_tokenizer] and [hub_model] answer a load request: the artefact, or
    the exception the library raises (network, authorization, memory).
    [server_start] is the web server taking its address: done, or the
    exception raised (the port is in use).  [encode], [piece], [special]
    and [eos] are the tokenizer's tables; tokenizing a text and giving the
    text piece of a token may raise.  [sample_next] is one stochastic
    choice of the next token from the network's output, warped by
    temperature and nucleus threshold and settled by one random draw;
    [greedy_next] is the choice made when sampling is off; either may raise
    (device memory, a mismatch of tokenizer and model). *)
Class Transformers : Type := {
  Vocab : Type;
  Weights : Type;
  Draw : Type;
  hub_tokenizer : tokenizer_kwargs -> result Vocab;
  hub_model : model_kwargs -> result Weights;
  loaded_training : Weights -> bool;
  server_start : string -> Z -> bool -> result unit;
  encode : Vocab -> string -> result (list token);
  piece : Vocab -> token -> result string;
  special : Vocab -> token -> bool;
  eos : Vocab -> option token;
  sample_next : Weights -> float -> float -> list token -> Draw
                -> result token;
  greedy_next : Weights -> list token -> result token
}.

(** ** Handles *)

Record TokenizerHandle `{Transformers} : Type := {
  tk_vocab : Vocab;
  is_fast : bool
}.

Record ModelHandle `{Transformers} : Type := {
  m_weights : Weights;
  m_dtype : dtype;
  hf_device_map : string;
  training : bool
}.

(** The module's global names after line 35, with the state of torch's
    random generator: the sequence of its draws and how many were used. *)
Record World `{Transformers} : Type := {
  tokenizer : TokenizerHandle;
  model : ModelHandle;
  draws : nat -> Draw;
  cursor : nat
}.

(** ** The script's top level as a logged, fallible computation *)

(** What a run leaves in its log: a read of the environment, a call of the
    script's [print], a load asked of the hub, the switch to evaluation
    mode, the widget built, the queue set up, the server started on an
    address. *)
Inductive event : Type :=
| EnvGet (name : string)
| Printed (msg : string)
| LoadTokenizer (kw : tokenizer_kwargs)
| LoadModel (kw : model_kwargs)
| ModelEval
| ChatInterface
| Queue
| Launch (server_name : string) (server_port : Z) (share : bool).

(** A statement sequence: it extends the log of what happened so far and
    either yields a value or raises, in which case nothing after it runs. *)
Definition script (A : Type) : Type := list event -> result A * list event.

Definition script_ret {A} (a : A) : script A := fun tr => (Ok a, tr).

Definition script_bind {A B} (k : A -> script B) (m : script A) : script B :=
  fun tr =>
    match m tr with
    | (Ok a, tr') => k a tr'
    | (Raise e, tr') => (Raise e, tr')
    end.

#[global] Instance script_mret : MRet script := @script_ret.
#[global] Instance script_mbind : MBind script := @script_bind.

Definition emit (e : event) : script unit := fun tr => (Ok tt, tr ++ [e]).

Definition lift_result {A} (r : result A) : script A := fun tr => (r, tr).

Definition is_env_get (e : event) : bool :=
  match e with EnvGet _ => true | _ => false end.
Definition is_load_tokenizer (e : event) : bool :=
  match e with LoadTokenizer _ => true | _ => false end.
Definition is_load_model (e : event) : bool :=
  match e with LoadModel _ => true | _ => false end.
Definition is_launch (e : event) : bool :=
  match e with Launch _ _ _ => true | _ => false end.

Definition is_model_eval (e : event) : bool :=
  match e with ModelEval => true | _ => false end.
(** The events of lines 50-59: the widget built, queued, launched. *)
Definition is_ui (e : event) : bool :=
  match e with ChatInterface | Queue | Launch _ _ _ => true | _ => false end.


(** How often an event of a kind occurs in a log. *)
Definition occurrences (p : event -> bool) (tr : list event) : nat :=
  length (List.filter p tr).

Section Server.
Context `{TF : Transformers}.

(** *** Lines 15-16 *)

Definition MODEL_ID : string := "openai/gpt-oss-120b".

(** [os.environ.get(name)]: the value, or [None] when the variable is not
    set; it does not raise. *)
Definition os_environ_get (env : gmap string string) (name : string)
  : script (option string) :=
  emit (EnvGet name);; mret (env !! name).

Definition print (msg : string) : script unit := emit (Printed msg).

(** *** Lines 19-34 *)

(** Modelled from the spec: the handle that a successful tokenizer load
    hands back, which the library builds.  "Tokenizer is configured to use
    the accelerated/fast tokenization path": it owns the fetched vocabulary
    and is the fast one when that was asked for. *)
Definition tokenizer_handle (kw : tokenizer_kwargs) (v : Vocab)
  : TokenizerHandle :=
  {| tk_vocab := v; is_fast := tk_use_fast kw |}.

(** Modelled from the spec: the handle that a successful model load hands
    back, which the library builds.  "ModelHandle is placed on an
    automatically selected compute device ... and reduced to a
    lower-precision numeric representation": it owns the fetched weights,
    in the precision and with the device map that were asked for. *)
Definition model_handle (kw : model_kwargs) (wts : Weights) : ModelHandle :=
  {| m_weights := wts;
     m_dtype := mk_torch_dtype kw;
     hf_device_map := mk_device_map kw;
     training := loaded_training wts |}.

(** [AutoTokenizer.from_pretrained]: the request goes to the hub, whose
    exception, if any, is raised to the caller. *)
Definition AutoTokenizer_from_pretrained (kw : tokenizer_kwargs)
  : script TokenizerHandle :=
  emit (LoadTokenizer kw);;
  v ← lift_result (hub_tokenizer kw);
  mret (tokenizer_handle kw v).

(** [AutoModelForCausalLM.from_pretrained], likewise. *)
Definition AutoModelForCausalLM_from_pretrained (kw : model_kwargs)
  : script ModelHandle :=
  emit (LoadModel kw);;
  wts ← lift_result (hub_model kw);
  mret (model_handle kw wts).

(** [model.eval()] switches the module out of training mode. *)
Definition model_eval (m : ModelHandle) : script ModelHandle :=
  emit ModelEval;;
  mret {| m_weights := m_weights m;
          m_dtype := m_dtype m;
          hf_device_map := hf_device_map m;
          training := false |}.

Definition the_tokenizer_kwargs (HF_TOKEN : option string) : tokenizer_kwargs :=
  {| tk_model_id := MODEL_ID;
     tk_use_fast := true;
     tk_trust_remote_code := true;
     tk_token := HF_TOKEN |}.

Definition the_model_kwargs (HF_TOKEN : option string) : model_kwargs :=
  {| mk_model_id := MODEL_ID;
     mk_torch_dtype := float16;
     mk_device_map := "auto";
     mk_trust_remote_code := true;
     mk_token := HF_TOKEN |}.

(** Lines 15-35: the loader. *)
Definition load (env : gmap string string)
  : script (TokenizerHandle * ModelHandle) :=
  HF_TOKEN ← os_environ_get env "HF_TOKEN";
  print "Loading tokenizer...";;
  tokenizer ← AutoTokenizer_from_pretrained (the_tokenizer_kwargs HF_TOKEN);
  print "Loading model (this may take a while)...";;
  model ← AutoModelForCausalLM_from_pretrained (the_model_kwargs HF_TOKEN);
  model ← model_eval model;
  print "Model loaded.";;
  mret (tokenizer, model).

(** *** Lines 37-48 *)

(** [tokenizer(prompt, return_tensors="pt")]: a batch of one row, the
    prompt's tokens, unless tokenizing raises. *)
Definition tokenizer_call (t : TokenizerHandle) (prompt : string)
  : result (list (list token)) :=
  match encode (tk_vocab t) prompt with
  | Ok ids => Ok [ids]
  | Raise e => Raise e
  end.

(** [.to(model.device)] moves the batch to the model's device; the values
    in it stay as they are. *)
Definition to_device (m : ModelHandle) (inputs : list (list token))
  : list (list token) := inputs.

Definition tokenizer_eos_token_id (t : TokenizerHandle) : option token :=
  eos (tk_vocab t).

(** Modelled from the spec: the choice of one token inside
    [model.generate].  "Sampling enabled (not greedy)": with [do_sample] the
    token is sampled under the temperature and the nucleus threshold from
    one draw, otherwise it is the greedy one; the step may raise. *)
Definition next_token (m : ModelHandle) (do_sample : bool)
    (temperature top_p : float) (ids : list token) (d : Draw)
  : result token :=
  if do_sample then sample_next (m_weights m) temperature top_p ids d
  else greedy_next (m_weights m) ids.

(** Modelled from the spec: the loop of [model.generate] on one row, which
    the library owns.  "Run autoregressive sampling ..., bounded by
    [max_new_tokens], terminating early if an end-of-sequence token is
    produced": each round appends the chosen token to the row and uses one
    draw when sampling is on; the row starts as the prompt's tokens, so the
    output echoes them.  "Any exhaustion of device memory during
    generation, or any tokenizer/model mismatch, surfaces as an
    unrecoverable error ...; no partial output is returned": a step that
    raises ends the loop with its exception.  The second component is the
    position in the sequence of draws afterwards. *)
Fixpoint sample_loop (m : ModelHandle) (do_sample : bool)
    (temperature top_p : float) (eos_token_id : option token)
    (ds : nat -> Draw) (budget : nat) (ids : list token) (c : nat)
  : result (list token) * nat :=
  match budget with
  | O => (Ok ids, c)
  | S budget' =>
      match next_token m do_sample temperature top_p ids (ds c) with
      | Raise e => (Raise e, c)
      | Ok t =>
          let c' := if do_sample then S c else c in
          if decide (eos_token_id = Some t) then (Ok (ids ++ [t]), c')
          else sample_loop m do_sample temperature top_p eos_token_id ds
                 budget' (ids ++ [t]) c'
      end
  end.

(** Modelled from the spec: the rows of a batch, sampled one after the
    other; the first exception ends the call. *)
Fixpoint sample_rows (m : ModelHandle) (do_sample : bool)
    (temperature top_p : float) (eos_token_id : option token)
    (ds : nat -> Draw) (budget : nat) (rows : list (list token)) (c : nat)
  : result (list (list token)) * nat :=
  match rows with
  | [] => (Ok [], c)
  | row :: rows' =>
      match sample_loop m do_sample temperature top_p eos_token_id ds
              budget row c with
      | (Raise e, c1) => (Raise e, c1)
      | (Ok out, c1) =>
          match sample_rows m do_sample temperature top_p eos_token_id ds
                  budget rows' c1 with
          | (Raise e, c2) => (Raise e, c2)
          | (Ok outs, c2) => (Ok (out :: outs), c2)
          end
      end
  end.

(** Modelled from the spec: [model.generate], which the library owns.
    "[max_new_tokens]: positive integer bound", "[temperature]: positive
    float": the library checks both before it samples and raises
    [ValueError] for a budget that is not positive and, when sampling, for
    a temperature that is not above zero; no draw is used then.
    Otherwise the rows are sampled. *)
Definition model_generate (m : ModelHandle) (input_ids : list (list token))
    (max_new_tokens : Z) (temperature top_p : float) (do_sample : bool)
    (eos_token_id : option token) (ds : nat -> Draw) (c : nat)
  : result (list (list token)) * nat :=
  if (max_new_tokens <=? 0)%Z then (Raise ValueError, c)
  else if do_sample && negb (0 <? temperature)%float
  then (Raise ValueError, c)
  else sample_rows m do_sample temperature top_p eos_token_id ds
         (Z.to_nat max_new_tokens) input_ids c.

(** Whether decoding keeps a token: all but the special ones when those
    are to be skipped. *)
Definition kept (t : TokenizerHandle) (skip_special_tokens : bool)
    (i : token) : bool :=
  negb (skip_special_tokens && special (tk_vocab t) i).

(** The text pieces of a row joined in order; a token whose piece cannot
    be given raises. *)
Fixpoint decode_pieces (t : TokenizerHandle) (ids : list token)
  : result string :=
  match ids with
  | [] => Ok ""
  | i :: ids' =>
      match piece (tk_vocab t) i with
      | Raise e => Raise e
      | Ok s =>
          match decode_pieces t ids' with
          | Raise e => Raise e
          | Ok rest => Ok (s +:+ rest)
          end
      end
  end.

(** Modelled from the spec: [tokenizer.decode], which the library owns.
    "Decode the full output token sequence ... back into text, stripping
    special control tokens": the text pieces of the kept tokens, in
    order. *)
Definition tokenizer_decode (t : TokenizerHandle) (ids : list token)
    (skip_special_tokens : bool) : result string :=
  decode_pieces t (List.filter (kept t skip_special_tokens) ids).

(** Lines 37-48 with every parameter bound.  The names [tokenizer] and
    [model] are read from the module's globals; [torch.no_grad()] only
    switches gradient recording off.  An exception raised by the tokenizer
    call, by [model.generate] or by [decode] leaves the function, and
    [output_ids[0]] raises on an empty batch.  The world returned is the
    one the call leaves, whether it returned or raised. *)
Definition generate (w : World) (prompt : string) (history : option History)
    (max_new_tokens : Z) (temperature top_p : float)
  : result string * World :=
  match tokenizer_call (tokenizer w) prompt with
  | Raise e => (Raise e, w)
  | Ok encoded =>
      let inputs := to_device (model w) encoded in
      let '(out, c) :=
        model_generate (model w) inputs max_new_tokens temperature top_p
          true (tokenizer_eos_token_id (tokenizer w)) (draws w) (cursor w) in
      let w' := {| tokenizer := tokenizer w; model := model w;
                   draws := draws w; cursor := c |} in
      match out with
      | Raise e => (Raise e, w')
      | Ok output_ids =>
          match output_ids !! 0%nat with
          | Some row => (tokenizer_decode (tokenizer w) row true, w')
          | None => (Raise IndexError, w')
          end
      end
  end.

(** The parameter list of line 37: an argument left out ([None]) takes its
    default; [history] defaults to Python's [None]. *)
Definition call_generate (w : World) (prompt : string)
    (history : option History) (max_new_tokens : option Z)
    (temperature top_p : option float) : result string * World :=
  generate w prompt history
    (default 256%Z max_new_tokens)
    (default 0.7%float temperature)
    (default 0.9%float top_p).

(** *** Lines 50-59 *)

(** [demo.launch(...)]: the server takes its address and is up, or the
    exception of a failed start is raised. *)
Definition demo_launch (server_name : string) (server_port : Z)
    (share : bool) : script unit :=
  lift_result (server_start server_name server_port share);;
  emit (Launch server_name server_port share).

(** The chat widget is built around [generate], queued and launched. *)
Definition wire : script unit :=
  emit ChatInterface;;
  emit Queue;;
  demo_launch "0.0.0.0" 7860 false.

(** The whole top level: load, then wire.  [ds] is what torch's generator
    will draw. *)
Definition main (env : gmap string string) (ds : nat -> Draw) : script World :=
  '(tok, m) ← load env;
  wire;;
  mret {| tokenizer := tok; model := m; draws := ds; cursor := 0 |}.

(** One turn submitted to the widget, which calls [fn(message, history)]. *)
Record Request : Type := {
  message : string;
  chat_history : History
}.

Definition chat_fn (w : World) (r : Request) : result string * World :=
  call_generate w (message r) (Some (chat_history r)) None None None.

(** The queued turns, answered one after the other; an exception in one
    turn is that turn's answer. *)
Fixpoint serve (w : World) (reqs : list Request)
  : list (result string) * World :=
  match reqs with
  | [] => ([], w)
  | r :: rs =>
      let '(a, w1) := chat_fn w r in
      let '(answers, w2) := serve w1 rs in
      (a :: answers, w2)
  end.

(** The process: its log and the answers it gives.  When the top level
    raises, the interpreter exits and no turn is answered. *)
Definition process (env : gmap string string) (ds : nat -> Draw)
    (reqs : list Request) : list event * list (result string) :=
  match main env ds [] with
  | (Ok w, tr) => (tr, fst (serve w reqs))
  | (Raise _, tr) => (tr, [])
  end.

End Server.

(** ** A small library to run the definitions on

    Tokens are character codes, code 0 is the end-of-sequence token and is
    special; the sampler picks the token its draw names and runs out of
    memory on a row of 64 tokens; the hub knows one model and wants a
    credential for the weights; the server starts on port 7860 only. *)
Module Toy.

Definition codes (s : string) : list token :=
  map (fun a => Z.of_nat (Ascii.nat_of_ascii a)) (list_ascii_of_string s).

Definition char_of (i : token) : string :=
  String (Ascii.ascii_of_nat (Z.to_nat i)) EmptyString.

#[local] Instance lib : Transformers := {|
  Vocab := unit;
  Weights := unit;
  Draw := Z;
  hub_tokenizer kw :=
    if decide (tk_model_id kw = "openai/gpt-oss-120b") then Ok tt
    else Raise NetworkError;
  hub_model kw :=
    match mk_token kw with
    | Some _ => Ok tt
    | None => Raise AuthorizationError
    end;
  loaded_training _ := true;
  server_start _ port _ :=
    if (port =? 7860)%Z then Ok tt else Raise OSError;
  encode _ s := Ok (codes s);
  piece _ i := Ok (char_of i);
  special _ i := (i =? 0)%Z;
  eos _ := Some 0%Z;
  sample_next _ _ _ ids d :=
    if (64 <=? Z.of_nat (length ids))%Z then Raise OutOfMemoryError else Ok d;
  greedy_next _ _ := Ok 0%Z
|}.

Definition env_with_token : gmap string string := {[ "HF_TOKEN" := "hf_secret" ]}.
Definition env_without_token : gmap string string := ∅.

(** Draws that spell "!?" and then name the end-of-sequence token. *)
Definition ds (i : nat) : Z :=
  match i with
  | 0%nat => 33%Z
  | 1%nat => 63%Z
  | 2%nat => 0%Z
  | _ => 65%Z
  end.

Definition world : World :=
  {| tokenizer := {| tk_vocab := tt; is_fast := true |};
     model := {| m_weights := tt; m_dtype := float16;
                 hf_device_map := "auto"; training := false |};
     draws := ds; cursor := 0 |}.

(** A generator that has given three draws already and agrees with [ds]
    on the next two only. *)
Definition ds_later (i : nat) : Z :=
  match i with
  | 3%nat => 33%Z
  | 4%nat => 63%Z
  | _ => 7%Z
  end.

Definition world_later : World :=
  {| tokenizer := tokenizer world; model := model world;
     draws := ds_later; cursor := 3 |}.

(** The generator of [world] after three draws that are not part of it. *)
Definition ds_shifted (i : nat) : Z := ds (i - 3).

Definition world_shifted : World :=
  {| tokenizer := tokenizer world; model := model world;
     draws := ds_shifted; cursor := 3 |}.


(** The log of a top level that succeeds with the credential [c]. *)
Definition log (c : option string) : list event :=
  [EnvGet "HF_TOKEN"; Printed "Loading tokenizer...";
   LoadTokenizer {| tk_model_id := "openai/gpt-oss-120b"; tk_use_fast := true;
                    tk_trust_remote_code := true; tk_token := c |};
   Printed "Loading model (this may take a while)...";
   LoadModel {| mk_model_id := "openai/gpt-oss-120b";
                mk_torch_dtype := float16; mk_device_map := "auto";
                mk_trust_remote_code := true; mk_token := c |};
   ModelEval; Printed "Model loaded."; ChatInterface; Queue;
   Launch "0.0.0.0" 7860 false].

End Toy.

Arguments generate {TF} w prompt%_string history max_new_tokens%_Z
  temperature%_float top_p%_float.
Arguments model_generate {TF} m input_ids max_new_tokens%_Z
  temperature%_float top_p%_float do_sample eos_token_id ds c%_nat.

(** ** Properties *)

(** *** Strings and decoding *)

Lemma string_app_assoc (a b c : string) : (a +:+ b) +:+ c = a +:+ (b +:+ c).
Proof.
  induction a as [|x a IH]; [reflexivity|].
  change (String x ((a +:+ b) +:+ c) = String x (a +:+ (b +:+ c))).
  now rewrite IH.
Qed.


Section Properties.
Context `{TF : Transformers}.

(** Joining the pieces of two rows laid end to end: both must decode, and
    the text is the two texts in order. *)
Lemma decode_pieces_app (t : TokenizerHandle) (a b : list token) :
  decode_pieces t (a ++ b) =
  match decode_pieces t a with
  | Raise e => Raise e
  | Ok ta =>
      match decode_pieces t b with
      | Raise e => Raise e
      | Ok tb => Ok (ta +:+ tb)
      end
  end.
Proof.
  induction a as [|i a IH]; cbn [app decode_pieces].
  - destruct (decode_pieces t b); reflexivity.
  - destruct (piece (tk_vocab t) i) as [s|e]; [|reflexivity].
    rewrite IH. destruct (decode_pieces t a) as [ta|e]; [|reflexivity].
    destruct (decode_pieces t b) as [tb|e]; [|reflexivity].
    now rewrite string_app_assoc.
Qed.

Lemma decode_app_ok (t : TokenizerHandle) (a b : list token) (k : bool)
    (text : string) :
  tokenizer_decode t (a ++ b) k = Ok text ->
  exists ta tb,
    tokenizer_decode t a k = Ok ta /\ tokenizer_decode t b k = Ok tb /\
    text = ta +:+ tb.
Proof.
  unfold tokenizer_decode. rewrite List.filter_app, decode_pieces_app.
  destruct (decode_pieces t (List.filter (kept t k) a)) as [ta|e];
    [|discriminate].
  destruct (decode_pieces t (List.filter (kept t k) b)) as [tb|e];
    [|discriminate].
  intros H. inversion H. exists ta, tb. repeat split.
Qed.

(** *** The sampling loop *)

(** What one run of the loop does: it uses one draw for each token it
    appends when sampling, and appends at most [budget] tokens, whether it
    ends with a row or with an exception; a row it ends with is the row it
    was given followed by the new tokens, nothing follows an
    end-of-sequence token, and the row stops short of the budget only on
    such a token. *)
Lemma sample_loop_spec (m : ModelHandle) (do_sample : bool)
    (temperature top_p : float) (eos_token_id : option token)
    (ds : nat -> Draw) (budget : nat) :
  forall (ids : list token) (c : nat),
  exists used : nat,
    snd (sample_loop m do_sample temperature top_p eos_token_id ds budget ids c)
      = c + (if do_sample then used else 0) /\
    used <= budget /\
    match fst (sample_loop m do_sample temperature top_p eos_token_id ds
                 budget ids c) with
    | Raise _ => True
    | Ok row =>
        exists new : list token,
          row = ids ++ new /\ length new = used /\
          (forall pre t post,
             new = pre ++ t :: post -> eos_token_id = Some t -> post = []) /\
          (length new < budget ->
             exists pre t, new = pre ++ [t] /\ eos_token_id = Some t)
    end.
Proof.
  induction budget as [|b IH]; intros ids c; cbn [sample_loop].
  - exists 0. cbn [fst snd]. split; [destruct do_sample; lia|].
    split; [lia|]. exists []. rewrite app_nil_r.
    split; [reflexivity|]. split; [reflexivity|]. split.
    + intros pre t post E. destruct pre; discriminate E.
    + cbn [length]. lia.
  - destruct (next_token m do_sample temperature top_p ids (ds c)) as [t|e].
    2:{ exists 0. cbn [fst snd]. split; [destruct do_sample; lia|].
        split; [lia | exact I]. }
    destruct (decide (eos_token_id = Some t)) as [Heos|Hne].
    + exists 1. cbn [fst snd]. split; [destruct do_sample; lia|].
      split; [lia|]. exists [t].
      split; [reflexivity|]. split; [reflexivity|]. split.
      * intros pre t' post E _. destruct pre as [|x pre]; cbn [app] in E.
        -- now inversion E.
        -- inversion E as [[Ex E']]. destruct pre; discriminate E'.
      * intros _. exists [], t. split; [reflexivity | exact Heos].
    + destruct (IH (ids ++ [t]) (if do_sample then S c else c))
        as (used & Hcur & Hused & Hrow).
      exists (S used). split; [rewrite Hcur; destruct do_sample; lia|].
      split; [lia|].
      destruct (fst (sample_loop m do_sample temperature top_p eos_token_id
                       ds b (ids ++ [t]) (if do_sample then S c else c)))
        as [row|e]; [|exact I].
      destruct Hrow as (new & Hnew & Hlen & Hstop & Hshort).
      exists (t :: new). split; [now rewrite Hnew, <- app_assoc|].
      split; [cbn [length]; now rewrite Hlen|]. split.
      * intros pre t' post E Heos. destruct pre as [|x pre]; cbn [app] in E.
        -- inversion E; subst. contradiction.
        -- inversion E as [[Ex E']]. eapply Hstop; eassumption.
      * cbn [length]. intros Hlt.
        destruct Hshort as (pre & t' & E & Heos); [lia|].
        exists (t :: pre), t'. split; [now rewrite E | exact Heos].
Qed.

(** The loop reads only the draws at the next [budget] positions. *)
Lemma sample_loop_draws (m : ModelHandle) (do_sample : bool)
    (temperature top_p : float) (eos_token_id : option token)
    (ds1 ds2 : nat -> Draw) (budget : nat) :
  forall (ids : list token) (c1 c2 : nat),
  (forall i, i < budget -> ds1 (c1 + i) = ds2 (c2 + i)) ->
  fst (sample_loop m do_sample temperature top_p eos_token_id ds1 budget ids c1)
    = fst (sample_loop m do_sample temperature top_p eos_token_id ds2 budget ids c2) /\
  snd (sample_loop m do_sample temperature top_p eos_token_id ds1 budget ids c1) + c2
    = snd (sample_loop m do_sample temperature top_p eos_token_id ds2 budget ids c2) + c1.
Proof.
  induction budget as [|b IH]; intros ids c1 c2 Hds; cbn [sample_loop].
  - cbn [fst snd]. split; [reflexivity | lia].
  - assert (H0 : ds1 c1 = ds2 c2).
    { specialize (Hds 0 ltac:(lia)). now rewrite !Nat.add_0_r in Hds. }
    rewrite H0.
    destruct (next_token m do_sample temperature top_p ids (ds2 c2)) as [t|e];
      [|cbn [fst snd]; split; [reflexivity | lia]].
    destruct (decide (eos_token_id = Some t)) as [_|_].
    + cbn [fst snd]. split; [reflexivity | destruct do_sample; lia].
    + destruct do_sample.
      * destruct (IH (ids ++ [t]) (S c1) (S c2)) as [Hrow Hcur].
        { intros i Hi. specialize (Hds (S i) ltac:(lia)).
          now rewrite !Nat.add_succ_r in Hds. }
        split; [exact Hrow | lia].
      * apply IH. intros i Hi. apply Hds. lia.
Qed.

(** *** [generate], unfolded once *)

Lemma generate_run (w : World) (prompt : string) (history : option History)
    (max_new_tokens : Z) (temperature top_p : float) :
  generate w prompt history max_new_tokens temperature top_p =
  match encode (tk_vocab (tokenizer w)) prompt with
  | Raise e => (Raise e, w)
  | Ok ids =>
      if (max_new_tokens <=? 0)%Z || negb (0 <? temperature)%float
      then (Raise ValueError,
            {| tokenizer := tokenizer w; model := model w;
               draws := draws w; cursor := cursor w |})
      else
        let r := sample_loop (model w) true temperature top_p
                   (tokenizer_eos_token_id (tokenizer w)) (draws w)
                   (Z.to_nat max_new_tokens) ids (cursor w) in
        (match fst r with
         | Raise e => Raise e
         | Ok row => tokenizer_decode (tokenizer w) row true
         end,
         {| tokenizer := tokenizer w; model := model w;
            draws := draws w; cursor := snd r |})
  end.
Proof.
  unfold generate, tokenizer_call, to_device, model_generate.
  destruct (encode (tk_vocab (tokenizer w)) prompt) as [ids|e];
    [|reflexivity].
  destruct (max_new_tokens <=? 0)%Z; [reflexivity|].
  destruct (0 <? temperature)%float; cbn [andb orb negb]; [|reflexivity].
  cbn [sample_rows].
  destruct (sample_loop _ _ _ _ _ _ _ _ _) as [[row|e] c1]; reflexivity.
Qed.

Lemma model_generate_one_row (m : ModelHandle) (row : list token)
    (max_new_tokens : Z) (temperature top_p : float) (do_sample : bool)
    (eos_token_id : option token) (ds : nat -> Draw) (c : nat) :
  model_generate m [row] max_new_tokens temperature top_p do_sample
    eos_token_id ds c =
  if (max_new_tokens <=? 0)%Z || (do_sample && negb (0 <? temperature)%float)
  then (Raise ValueError, c)
  else
    let r := sample_loop m do_sample temperature top_p eos_token_id ds
               (Z.to_nat max_new_tokens) row c in
    (match fst r with Raise e => Raise e | Ok out => Ok [out] end, snd r).
Proof.
  unfold model_generate.
  destruct (max_new_tokens <=? 0)%Z; [reflexivity|]. cbn [orb].
  destruct (do_sample && negb (0 <? temperature)%float); [reflexivity|].
  cbn [sample_rows].
  destruct (sample_loop _ _ _ _ _ _ _ _ _) as [[out|e] c1]; reflexivity.
Qed.

(** A call leaves the handles and the sequence of draws alone and moves
    the position in it forward, by no more than the budget. *)
Lemma generate_frame (w : World) (prompt : string) (history : option History)
    (max_new_tokens : Z) (temperature top_p : float) :
  let w' := snd (generate w prompt history max_new_tokens temperature top_p) in
  tokenizer w' = tokenizer w /\ model w' = model w /\ draws w' = draws w /\
  cursor w <= cursor w' /\ cursor w' <= cursor w + Z.to_nat max_new_tokens.
Proof.
  rewrite generate_run.
  destruct (encode (tk_vocab (tokenizer w)) prompt) as [ids|e];
    [|cbn [snd]; repeat split; lia].
  destruct ((max_new_tokens <=? 0)%Z || negb (0 <? temperature)%float);
    [cbn [snd tokenizer model draws cursor]; repeat split; lia|].
  cbv zeta. cbn [snd tokenizer model draws cursor].
  destruct (sample_loop_spec (model w) true temperature top_p
              (tokenizer_eos_token_id (tokenizer w)) (draws w)
              (Z.to_nat max_new_tokens) ids (cursor w))
    as (used & Hcur & Hused & _).
  rewrite Hcur. repeat split; lia.
Qed.

(** A call that returns a text: how the text came about. *)
Lemma generate_ok (w : World) (prompt : string) (history : option History)
    (max_new_tokens : Z) (temperature top_p : float) (text : string) :
  fst (generate w prompt history max_new_tokens temperature top_p) = Ok text ->
  exists (ids new : list token),
    encode (tk_vocab (tokenizer w)) prompt = Ok ids /\
    (0 < max_new_tokens)%Z /\
    (0 <? temperature)%float = true /\
    sample_loop (model w) true temperature top_p
      (tokenizer_eos_token_id (tokenizer w)) (draws w)
      (Z.to_nat max_new_tokens) ids (cursor w)
      = (Ok (ids ++ new), cursor w + length new) /\
    length new <= Z.to_nat max_new_tokens /\
    (forall pre t post,
       new = pre ++ t :: post ->
       tokenizer_eos_token_id (tokenizer w) = Some t -> post = []) /\
    (length new < Z.to_nat max_new_tokens ->
       exists pre t,
         new = pre ++ [t] /\ tokenizer_eos_token_id (tokenizer w) = Some t) /\
    tokenizer_decode (tokenizer w) (ids ++ new) true = Ok text /\
    cursor (snd (generate w prompt history max_new_tokens temperature top_p))
      = cursor w + length new.
Proof.
  rewrite generate_run.
  destruct (encode (tk_vocab (tokenizer w)) prompt) as [ids|e];
    [|discriminate].
  destruct (Z.leb_spec max_new_tokens 0) as [Hle|Hlt]; [discriminate|].
  destruct (0 <? temperature)%float eqn:Htemp; cbn [orb negb];
    [|discriminate].
  cbv zeta. cbn [fst snd cursor].
  destruct (sample_loop_spec (model w) true temperature top_p
              (tokenizer_eos_token_id (tokenizer w)) (draws w)
              (Z.to_nat max_new_tokens) ids (cursor w))
    as (used & Hcur & Hused & Hrow).
  destruct (sample_loop _ _ _ _ _ _ _ _ _) as [[row|e] c1] eqn:Hloop;
    cbn [fst snd] in *; [|discriminate].
  destruct Hrow as (new & Hnew & Hlen & Hstop & Hshort). subst row used c1.
  intros Hdec. exists ids, new.
  split; [reflexivity|]. split; [exact Hlt|]. split; [reflexivity|].
  split; [exact Hloop|]. split; [exact Hused|]. split; [exact Hstop|].
  split; [exact Hshort|]. split; [exact Hdec | reflexivity].
Qed.

(** *** The top level, run from an empty log *)

Lemma main_run (env : gmap string string) (ds : nat -> Draw) :
  main env ds [] =
  let c := env !! "HF_TOKEN" in
  let log_tokenizer :=
    [EnvGet "HF_TOKEN"; Printed "Loading tokenizer...";
     LoadTokenizer (the_tokenizer_kwargs c)] in
  let log_model :=
    log_tokenizer ++
    [Printed "Loading model (this may take a while)...";
     LoadModel (the_model_kwargs c)] in
  let log_widget :=
    log_model ++ [ModelEval; Printed "Model loaded."; ChatInterface; Queue] in
  match hub_tokenizer (the_tokenizer_kwargs c) with
  | Raise e => (Raise e, log_tokenizer)
  | Ok v =>
      match hub_model (the_model_kwargs c) with
      | Raise e => (Raise e, log_model)
      | Ok wts =>
          match server_start "0.0.0.0" 7860 false with
          | Raise e => (Raise e, log_widget)
          | Ok _ =>
              (Ok {| tokenizer := {| tk_vocab := v; is_fast := true |};
                     model := {| m_weights := wts; m_dtype := float16;
                                 hf_device_map := "auto";
                                 training := false |};
                     draws := ds; cursor := 0 |},
               log_widget ++ [Launch "0.0.0.0" 7860 false])
          end
      end
  end.
Proof.
  unfold main, load, wire, demo_launch, os_environ_get, print,
    AutoTokenizer_from_pretrained, AutoModelForCausalLM_from_pretrained,
    model_eval, tokenizer_handle, model_handle, emit, lift_result, mbind,
    mret, script_mbind, script_mret, script_bind, script_ret.
  set (c := env !! "HF_TOKEN"). clearbody c. cbn.
  destruct (hub_tokenizer (the_tokenizer_kwargs c)) as [v|e]; cbn;
    [|reflexivity].
  destruct (hub_model (the_model_kwargs c)) as [wts|e]; cbn; [|reflexivity].
  destruct (server_start "0.0.0.0" 7860 false) as [u|e]; reflexivity.
Qed.

(** *** The turns of the queue *)

Lemma chat_fn_frame (w : World) (r : Request) :
  let w' := snd (chat_fn w r) in
  tokenizer w' = tokenizer w /\ model w' = model w /\ draws w' = draws w /\
  cursor w <= cursor w' /\ cursor w' <= cursor w + 256.
Proof.
  unfold chat_fn, call_generate.
  destruct (generate_frame w (message r) (Some (chat_history r))
              (default 256%Z None) (default 0.7%float None)
              (default 0.9%float None)) as (Ht & Hm & Hd & Hlo & Hhi).
  change (default 256%Z None) with 256%Z in *.
  cbv zeta. repeat split; first [assumption | lia].
Qed.

Lemma serve_frame (reqs : list Request) :
  forall w : World,
  tokenizer (snd (serve w reqs)) = tokenizer w /\
  model (snd (serve w reqs)) = model w /\
  draws (snd (serve w reqs)) = draws w.
Proof.
  induction reqs as [|r rs IH]; intros w; cbn [serve]; [cbn [snd]; auto|].
  pose proof (chat_fn_frame w r) as Hg.
  destruct (chat_fn w r) as [a w1].
  specialize (IH w1). destruct (serve w1 rs) as [answers w2].
  cbn [snd] in *. destruct Hg as (Ht & Hm & Hd & _), IH as (Ht' & Hm' & Hd').
  repeat split; congruence.
Qed.

(** One turn reads only the next 256 draws. *)
Lemma chat_fn_draws (w1 w2 : World) (r : Request) :
  tokenizer w1 = tokenizer w2 ->
  model w1 = model w2 ->
  (forall i, i < 256 -> draws w1 (cursor w1 + i) = draws w2 (cursor w2 + i)) ->
  fst (chat_fn w1 r) = fst (chat_fn w2 r) /\
  cursor (snd (chat_fn w1 r)) + cursor w2
    = cursor (snd (chat_fn w2 r)) + cursor w1.
Proof.
  intros Ht Hm Hds. unfold chat_fn, call_generate.
  rewrite !generate_run. rewrite Ht, Hm.
  destruct (encode (tk_vocab (tokenizer w2)) (message r)) as [ids|e];
    [|cbn [fst snd]; split; [reflexivity | lia]].
  destruct ((default 256%Z None <=? 0)%Z
            || negb (0 <? default 0.7%float None)%float);
    [cbn [fst snd cursor]; split; [reflexivity | lia]|].
  cbv zeta. cbn [fst snd cursor].
  destruct (sample_loop_draws (model w2) true (default 0.7%float None)
              (default 0.9%float None)
              (tokenizer_eos_token_id (tokenizer w2)) (draws w1) (draws w2)
              (Z.to_nat (default 256%Z None)) ids
              (cursor w1) (cursor w2)) as [Hrow Hcur].
  { intros i Hi. apply Hds. change (default 256%Z None) with 256%Z in Hi. lia. }
  split; [now rewrite Hrow | exact Hcur].
Qed.

End Properties.

(** ** The claims of the specification *)

Section Claims.
Context `{TF : Transformers}.


(** C2.  The history does not reach the result: two calls that differ in
    the history only return the same text and leave the same world; the
    batch the model is run on is the prompt's tokens, whatever the history;
    and the queue answers the same when every turn's history is erased. *)
Theorem C2_history_does_not_influence_generate
    (w : World) (prompt : string) (h1 h2 : option History)
    (max_new_tokens : Z) (temperature top_p : float) (reqs : list Request) :
  generate w prompt h1 max_new_tokens temperature top_p
    = generate w prompt h2 max_new_tokens temperature top_p /\
  match encode (tk_vocab (tokenizer w)) prompt with
  | Raise e =>
      fst (generate w prompt h1 max_new_tokens temperature top_p) = Raise e /\
      fst (generate w prompt h2 max_new_tokens temperature top_p) = Raise e
  | Ok ids =>
      exists (out : result (list (list token))) (c : nat),
        model_generate (model w) [ids] max_new_tokens temperature top_p true
          (tokenizer_eos_token_id (tokenizer w)) (draws w) (cursor w)
          = (out, c) /\
        let answer :=
          match out with
          | Raise e => Raise e
          | Ok rows =>
              match rows !! 0%nat with
              | Some row => tokenizer_decode (tokenizer w) row true
              | None => Raise IndexError
              end
          end in
        fst (generate w prompt h1 max_new_tokens temperature top_p) = answer /\
        fst (generate w prompt h2 max_new_tokens temperature top_p) = answer
  end /\
  serve w reqs
    = serve w (map (fun r => {| message := message r; chat_history := [] |}) reqs).
Proof.
  split; [reflexivity|]. split.
  - unfold generate, tokenizer_call, to_device.
    destruct (encode (tk_vocab (tokenizer w)) prompt) as [ids|e];
      [|split; reflexivity].
    destruct (model_generate _ _ _ _ _ _ _ _ _) as [out c].
    exists out, c. split; [reflexivity|]. cbv zeta.
    destruct out as [rows|e]; [destruct (rows !! 0%nat)|];
      split; reflexivity.
  - revert w. induction reqs as [|r rs IH]; intros w;
      cbn [serve map]; [reflexivity|].
    change (chat_fn w {| message := message r; chat_history := [] |})
      with (chat_fn w r).
    destruct (chat_fn w r) as [a w1]. now rewrite IH.
Qed.

(** C3.  Every call terminates.  Sampling uses one draw for each new token
    and produces at most [max_new_tokens] of them, whether the call returns
    or raises (none at all for a budget that is not positive, which the
    library rejects).  When sampling yields an output row, the row is the
    prompt's tokens followed by the new ones, so it is at most
    [max_new_tokens] longer than the encoded prompt; nothing is produced
    after an end-of-sequence token, and the row stops short of the budget
    only on such a token; [generate] then returns what decoding that row
    gives. *)
Theorem C3_sampling_bounded_and_stops_at_eos
    (w : World) (prompt : string) (history : option History)
    (max_new_tokens : Z) (temperature top_p : float) :
  let tok := tokenizer w in
  let call := generate w prompt history max_new_tokens temperature top_p in
  match encode (tk_vocab tok) prompt with
  | Raise e => call = (Raise e, w)
  | Ok prompt_ids =>
      let run :=
        model_generate (model w) [prompt_ids] max_new_tokens temperature
          top_p true (tokenizer_eos_token_id tok) (draws w) (cursor w) in
      cursor (snd call) = snd run /\
      cursor w <= snd run /\
      snd run <= cursor w + Z.to_nat max_new_tokens /\
      match fst run with
      | Raise e => fst call = Raise e
      | Ok rows =>
          exists new : list token,
            rows = [prompt_ids ++ new] /\
            snd run = cursor w + length new /\
            (Z.of_nat (length new) <= max_new_tokens)%Z /\
            (Z.of_nat (length (prompt_ids ++ new))
               <= Z.of_nat (length prompt_ids) + max_new_tokens)%Z /\
            (forall pre t post,
               new = pre ++ t :: post -> tokenizer_eos_token_id tok = Some t ->
               post = []) /\
            ((Z.of_nat (length new) < max_new_tokens)%Z ->
               exists pre t,
                 new = pre ++ [t] /\ tokenizer_eos_token_id tok = Some t) /\
            fst call = tokenizer_decode tok (prompt_ids ++ new) true
      end
  end.
Proof.
  intros tok call. subst call. rewrite generate_run. fold tok.
  destruct (encode (tk_vocab tok) prompt) as [ids|e]; [|reflexivity].
  cbv zeta. rewrite model_generate_one_row. cbn [andb].
  destruct (Z.leb_spec max_new_tokens 0) as [Hle|Hpos]; cbn [orb].
  { cbn [fst snd cursor]. repeat split; lia. }
  destruct (0 <? temperature)%float; cbn [negb].
  2:{ cbn [fst snd cursor]. repeat split; lia. }
  cbv zeta. cbn [fst snd cursor].
  destruct (sample_loop_spec (model w) true temperature top_p
              (tokenizer_eos_token_id tok) (draws w)
              (Z.to_nat max_new_tokens) ids (cursor w))
    as (used & Hcur & Hused & Hrow).
  destruct (sample_loop _ _ _ _ _ _ _ _ _) as [[row|e] c1];
    cbn [fst snd] in *.
  - destruct Hrow as (new & Hnew & Hlen & Hstop & Hshort). subst row used c1.
    split; [reflexivity|]. split; [lia|]. split; [lia|].
    exists new. split; [reflexivity|]. split; [reflexivity|].
    split; [lia|]. split; [rewrite length_app; lia|].
    split; [exact Hstop|]. split; [|reflexivity].
    intros Hlt. apply Hshort. lia.
  - subst c1. split; [reflexivity|]. split; [lia|]. split; [lia|reflexivity].
Qed.


(** C5.  Each handle is loaded at most once; the top level ends without
    raising exactly when the hub answers both load requests and the server
    starts; when it does, each handle was loaded exactly once and before
    the one launch that ends the log, and the turns are answered by [serve]
    on the loaded world; when a load raises, or the start of the server,
    the log has no launch and no turn is answered. *)
Theorem C5_handles_loaded_once_before_serving
    (env : gmap string string) (ds : nat -> Draw) (reqs : list Request) :
  let c := env !! "HF_TOKEN" in
  let run := main env ds [] in
  occurrences is_load_tokenizer (snd run) <= 1 /\
  occurrences is_load_model (snd run) <= 1 /\
  is_ok (fst run)
    = is_ok (hub_tokenizer (the_tokenizer_kwargs c))
      && is_ok (hub_model (the_model_kwargs c))
      && is_ok (server_start "0.0.0.0" 7860 false) /\
  match fst run with
  | Ok w =>
      exists pre,
        snd run = pre ++ [Launch "0.0.0.0" 7860 false] /\
        occurrences is_load_tokenizer pre = 1 /\
        occurrences is_load_model pre = 1 /\
        occurrences is_launch pre = 0 /\
        process env ds reqs = (snd run, fst (serve w reqs)) /\
        length (fst (serve w reqs)) = length reqs
  | Raise e =>
      (hub_tokenizer (the_tokenizer_kwargs c) = Raise e \/
       hub_model (the_model_kwargs c) = Raise e \/
       server_start "0.0.0.0" 7860 false = Raise e) /\
      occurrences is_launch (snd run) = 0 /\
      process env ds reqs = (snd run, [])
  end.
Proof.
  intros c run. unfold process. subst run. rewrite main_run. fold c.
  cbv zeta.
  destruct (hub_tokenizer (the_tokenizer_kwargs c)) as [v|e];
    [destruct (hub_model (the_model_kwargs c)) as [wts|e];
     [destruct (server_start "0.0.0.0" 7860 false) as [u|e]|]|];
    cbn [fst snd is_ok andb].
  - split; [cbn; lia|]. split; [cbn; lia|]. split; [reflexivity|].
    exists [EnvGet "HF_TOKEN"; Printed "Loading tokenizer...";
            LoadTokenizer (the_tokenizer_kwargs c);
            Printed "Loading model (this may take a while)...";
            LoadModel (the_model_kwargs c); ModelEval;
            Printed "Model loaded."; ChatInterface; Queue].
    split; [reflexivity|]. split; [reflexivity|]. split; [reflexivity|].
    split; [reflexivity|]. split; [reflexivity|].
    match goal with |- context [serve ?w0 reqs] => generalize w0 end.
    induction reqs as [|r rs IH]; intros w0; cbn [serve]; [reflexivity|].
    destruct (chat_fn w0 r) as [a w1]. specialize (IH w1).
    destruct (serve w1 rs) as [answers w2]. cbn [fst length] in *.
    now rewrite IH.
  - split; [cbn; lia|]. split; [cbn; lia|]. split; [reflexivity|].
    split; [now right; right|]. split; reflexivity.
  - split; [cbn; lia|]. split; [cbn; lia|]. split; [reflexivity|].
    split; [now right; left|]. split; reflexivity.
  - split; [cbn; lia|]. split; [cbn; lia|]. split; [reflexivity|].
    split; [now left|]. split; reflexivity.
Qed.

(** C6.  The top level reads one environment variable, [HF_TOKEN], and the
    read yields its value or [None] and does not raise; the tokenizer load
    and the model load are both asked for the constant model identifier with
    that same value as credential; with the variable unset both are asked
    with [None], and whether the top level then succeeds is up to the hub
    and the start of the server alone. *)
Theorem C6_one_credential_for_both_loads
    (env : gmap string string) (ds : nat -> Draw) :
  let c := env !! "HF_TOKEN" in
  let tr := snd (main env ds []) in
  let tr0 := snd (main (delete "HF_TOKEN" env) ds []) in
  os_environ_get env "HF_TOKEN" [] = (Ok c, [EnvGet "HF_TOKEN"]) /\
  List.filter is_env_get tr = [EnvGet "HF_TOKEN"] /\
  List.filter is_load_tokenizer tr = [LoadTokenizer (the_tokenizer_kwargs c)] /\
  List.filter is_load_model tr
    = (if is_ok (hub_tokenizer (the_tokenizer_kwargs c))
       then [LoadModel (the_model_kwargs c)] else []) /\
  tk_token (the_tokenizer_kwargs c) = c /\
  mk_token (the_model_kwargs c) = c /\
  tk_model_id (the_tokenizer_kwargs c) = "openai/gpt-oss-120b" /\
  mk_model_id (the_model_kwargs c) = "openai/gpt-oss-120b" /\
  List.filter is_load_tokenizer tr0 = [LoadTokenizer (the_tokenizer_kwargs None)] /\
  List.filter is_load_model tr0
    = (if is_ok (hub_tokenizer (the_tokenizer_kwargs None))
       then [LoadModel (the_model_kwargs None)] else []) /\
  is_ok (fst (main (delete "HF_TOKEN" env) ds []))
    = is_ok (hub_tokenizer (the_tokenizer_kwargs None))
      && is_ok (hub_model (the_model_kwargs None))
      && is_ok (server_start "0.0.0.0" 7860 false).
Proof.
  intros c tr tr0. subst tr tr0. rewrite !main_run.
  rewrite lookup_delete_eq. fold c. cbv zeta.
  split; [reflexivity|].
  destruct (server_start "0.0.0.0" 7860 false) as [u|es];
    (destruct (hub_tokenizer (the_tokenizer_kwargs c)) as [v|e];
     [destruct (hub_model (the_model_kwargs c)) as [wts|e]|]);
    (destruct (hub_tokenizer (the_tokenizer_kwargs None)) as [v0|e0];
     [destruct (hub_model (the_model_kwargs None)) as [wts0|e0]|]);
    cbn [fst snd is_ok andb]; repeat split.
Qed.

(** C7.  When the top level succeeds, the model handle has the device map
    ["auto"] and the precision [float16], which is narrower than the
    default precision, and the tokenizer handle is the fast one; these are
    the options the two load requests in the log carry. *)
Theorem C7_loaded_handles_configuration
    (env : gmap string string) (ds : nat -> Draw) (w : World)
    (tr : list event) :
  main env ds [] = (Ok w, tr) ->
  hf_device_map (model w) = "auto" /\
  m_dtype (model w) = float16 /\
  dtype_bits (m_dtype (model w)) < dtype_bits torch_default_dtype /\
  is_fast (tokenizer w) = true /\
  training (model w) = false /\
  (exists kw, In (LoadModel kw) tr /\
     mk_device_map kw = "auto" /\ mk_torch_dtype kw = float16) /\
  (exists kw, In (LoadTokenizer kw) tr /\ tk_use_fast kw = true).
Proof.
  rewrite main_run. cbv zeta. intros Hrun.
  destruct (hub_tokenizer _) as [v|e]; [|discriminate Hrun].
  destruct (hub_model _) as [wts|e]; [|discriminate Hrun].
  destruct (server_start _ _ _) as [u|e]; [|discriminate Hrun].
  inversion Hrun; subst; clear Hrun. cbn [model tokenizer hf_device_map m_dtype
    is_fast training dtype_bits torch_default_dtype].
  split; [reflexivity|]. split; [reflexivity|]. split; [lia|].
  split; [reflexivity|]. split; [reflexivity|]. split.
  - exists (the_model_kwargs (env !! "HF_TOKEN")).
    split; [cbn; tauto | split; reflexivity].
  - exists (the_tokenizer_kwargs (env !! "HF_TOKEN")).
    split; [cbn; tauto | reflexivity].
Qed.

(** C8.  A call that leaves the sampling parameters out runs with
    [max_new_tokens = 256], [temperature = 0.7] and [top_p = 0.9]; this is
    how the chat widget calls; a parameter that is given is used. *)
Theorem C8_default_sampling_parameters
    (w : World) (prompt : string) (history : option History) (r : Request)
    (m : Z) (t p : float) :
  call_generate w prompt history None None None
    = generate w prompt history 256 0.7 0.9 /\
  call_generate w prompt None None None None
    = generate w prompt None 256 0.7 0.9 /\
  chat_fn w r = generate w (message r) (Some (chat_history r)) 256 0.7 0.9 /\
  call_generate w prompt history (Some m) (Some t) (Some p)
    = generate w prompt history m t p.
Proof. repeat split. Qed.

(** C9.  A call of [generate] leaves the tokenizer handle and the model
    handle as they were, and so does any sequence of turns; after any
    sequence of turns both handles are the ones the loader left, the model
    still out of training mode. *)
Theorem C9_generate_leaves_handles_unchanged
    (w : World) (prompt : string) (history : option History)
    (max_new_tokens : Z) (temperature top_p : float)
    (env : gmap string string) (ds : nat -> Draw) (reqs : list Request) :
  (let w' := snd (generate w prompt history max_new_tokens temperature top_p) in
   tokenizer w' = tokenizer w /\ model w' = model w) /\
  (let w' := snd (serve w reqs) in
   tokenizer w' = tokenizer w /\ model w' = model w) /\
  match fst (main env ds []) with
  | Ok w0 =>
      let w' := snd (serve w0 reqs) in
      tokenizer w' = tokenizer w0 /\ model w' = model w0 /\
      training (model w') = false
  | Raise _ => True
  end.
Proof.
  split; [|split].
  - destruct (generate_frame w prompt history max_new_tokens temperature top_p)
      as (Ht & Hm & _). split; assumption.
  - destruct (serve_frame reqs w) as (Ht & Hm & _). split; assumption.
  - rewrite main_run. cbv zeta.
    destruct (hub_tokenizer _) as [v|e]; [|exact I].
    destruct (hub_model _) as [wts|e]; [|exact I].
    destruct (server_start _ _ _) as [u|e]; [|exact I].
    cbn [fst].
    match goal with |- context [serve ?w0 reqs] =>
      destruct (serve_frame reqs w0) as (Ht & Hm & _) end.
    rewrite Ht, Hm. repeat split.
Qed.

(** C10.  Two calls with the same arguments, on worlds with the same
    handles whose random generators give the same next [max_new_tokens]
    draws, return the same text and use the same number of draws: the
    result depends on the arguments, the handles and those draws only. *)
Theorem C10_generate_determined_by_arguments_and_draws
    (w1 w2 : World) (prompt : string) (history : option History)
    (max_new_tokens : Z) (temperature top_p : float) :
  tokenizer w1 = tokenizer w2 ->
  model w1 = model w2 ->
  (forall i, i < Z.to_nat max_new_tokens ->
     draws w1 (cursor w1 + i) = draws w2 (cursor w2 + i)) ->
  fst (generate w1 prompt history max_new_tokens temperature top_p)
    = fst (generate w2 prompt history max_new_tokens temperature top_p) /\
  cursor (snd (generate w1 prompt history max_new_tokens temperature top_p))
    + cursor w2
    = cursor (snd (generate w2 prompt history max_new_tokens temperature top_p))
      + cursor w1.
Proof.
  intros Ht Hm Hds. rewrite !generate_run. rewrite Ht, Hm.
  destruct (encode (tk_vocab (tokenizer w2)) prompt) as [ids|e];
    [|cbn [fst snd]; split; [reflexivity | lia]].
  destruct ((max_new_tokens <=? 0)%Z || negb (0 <? temperature)%float);
    [cbn [fst snd cursor]; split; [reflexivity | lia]|].
  cbv zeta. cbn [fst snd cursor].
  destruct (sample_loop_draws (model w2) true temperature top_p
              (tokenizer_eos_token_id (tokenizer w2)) (draws w1) (draws w2)
              (Z.to_nat max_new_tokens) ids
              (cursor w1) (cursor w2) Hds) as [Hrow Hcur].
  split; [now rewrite Hrow | exact Hcur].
Qed.

End Claims.

(** ** The definitions at work on the small library *)

Example toy_generate_stops_at_eos :
  fst (generate Toy.world "Hi" None 5 0.7 0.9) = Ok "Hi!?".
Proof. vm_compute. reflexivity. Qed.

Example toy_generate_stops_at_budget :
  generate Toy.world "Hi" None 1 0.7 0.9
  = (Ok "Hi!", {| tokenizer := tokenizer Toy.world; model := model Toy.world;
                  draws := Toy.ds; cursor := 1 |}).
Proof. vm_compute. reflexivity. Qed.

Example toy_generate_rejects_temperature_zero :
  generate Toy.world "Hi" None 5 0 0.9
  = (Raise ValueError,
     {| tokenizer := tokenizer Toy.world; model := model Toy.world;
        draws := Toy.ds; cursor := 0 |}).
Proof. vm_compute. reflexivity. Qed.

Example toy_process_serves :
  process (TF := Toy.lib) Toy.env_with_token Toy.ds
    [ {| message := "Hi"; chat_history := [] |};
      {| message := "Yo"; chat_history := [("Hi", "Hi!?")] |} ]
  = (Toy.log (Some "hf_secret"), [Ok "Hi!?"; Raise OutOfMemoryError]).
Proof. vm_compute. reflexivity. Qed.

Example toy_process_without_credential :
  process (TF := Toy.lib) Toy.env_without_token Toy.ds
    [ {| message := "Hi"; chat_history := [] |} ]
  = (firstn 5 (Toy.log None), []).
Proof. vm_compute. reflexivity. Qed.

(** ** The claims that fail as stated, at concrete inputs *)



(** ** The conditional claims, at concrete inputs *)


Lemma C7_witness :
  main (TF := Toy.lib) Toy.env_with_token Toy.ds []
    = (Ok Toy.world, Toy.log (Some "hf_secret")) /\
  hf_device_map (model Toy.world) = "auto" /\
  m_dtype (model Toy.world) = float16 /\
  dtype_bits (m_dtype (model Toy.world)) < dtype_bits torch_default_dtype /\
  is_fast (tokenizer Toy.world) = true.
Proof.
  assert (Hrun : main (TF := Toy.lib) Toy.env_with_token Toy.ds []
                 = (Ok Toy.world, Toy.log (Some "hf_secret")))
    by (vm_compute; reflexivity).
  split; [exact Hrun|].
  destruct (C7_loaded_handles_configuration (TF := Toy.lib)
              Toy.env_with_token Toy.ds Toy.world
              (Toy.log (Some "hf_secret")) Hrun)
    as (Hmap & Hdt & Hbits & Hfast & _).
  split; [exact Hmap|]. split; [exact Hdt|]. split; [exact Hbits | exact Hfast].
Defined.

Lemma C10_witness :
  tokenizer Toy.world = tokenizer Toy.world_later /\
  model Toy.world = model Toy.world_later /\
  (forall i, i < Z.to_nat 2 ->
     draws Toy.world (cursor Toy.world + i)
       = draws Toy.world_later (cursor Toy.world_later + i)) /\
  fst (generate Toy.world "Hi" None 2 0.7 0.9)
    = fst (generate Toy.world_later "Hi" None 2 0.7 0.9).
Proof.
  assert (Hds : forall i, i < Z.to_nat 2 ->
            draws Toy.world (cursor Toy.world + i)
              = draws Toy.world_later (cursor Toy.world_later + i)).
  { intros i Hi. change (Z.to_nat 2) with 2 in Hi.
    destruct i as [|[|i]]; [reflexivity | reflexivity | lia]. }
  split; [reflexivity|]. split; [reflexivity|]. split; [exact Hds|].
  exact (proj1 (C10_generate_determined_by_arguments_and_draws
                  Toy.world Toy.world_later "Hi" None 2 0.7 0.9
                  eq_refl eq_refl Hds)).
Defined.

(** ** Further properties of the script *)

Section Extras.
Context `{TF : Transformers}.




(** X4.  The widget is built and queued once both loads succeeded and not
    otherwise, and launched after that when the server starts: in this
    order and once each; the launch binds all interfaces on port 7860
    without a share link; and the model was switched to evaluation mode
    once, after loading and before the widget was built. *)
Theorem X4_widget_built_after_loading
    (env : gmap string string) (ds : nat -> Draw) :
  let c := env !! "HF_TOKEN" in
  let run := main env ds [] in
  let loaded := is_ok (hub_tokenizer (the_tokenizer_kwargs c))
                && is_ok (hub_model (the_model_kwargs c)) in
  List.filter is_ui (snd run)
    = (if loaded
       then if is_ok (fst run)
            then [ChatInterface; Queue; Launch "0.0.0.0" 7860 false]
            else [ChatInterface; Queue]
       else []) /\
  occurrences is_model_eval (snd run) = (if loaded then 1 else 0) /\
  (if is_ok (fst run)
   then exists pre,
          snd run = pre ++ [ModelEval; Printed "Model loaded."; ChatInterface;
                            Queue; Launch "0.0.0.0" 7860 false] /\
          occurrences is_ui pre = 0 /\ occurrences is_model_eval pre = 0
   else True).
Proof.
  intros c run loaded. subst run loaded. rewrite main_run. fold c. cbv zeta.
  clearbody c.
  destruct (hub_tokenizer (the_tokenizer_kwargs c)) as [v|e];
    [destruct (hub_model (the_model_kwargs c)) as [wts|e];
     [destruct (server_start "0.0.0.0" 7860 false) as [u|e]|]|];
    cbn [fst snd is_ok andb].
  - split; [reflexivity|]. split; [reflexivity|].
    exists [EnvGet "HF_TOKEN"; Printed "Loading tokenizer...";
            LoadTokenizer (the_tokenizer_kwargs c);
            Printed "Loading model (this may take a while)...";
            LoadModel (the_model_kwargs c)].
    split; [reflexivity|]. split; reflexivity.
  - split; [reflexivity|]. split; [reflexivity | exact I].
  - split; [reflexivity|]. split; [reflexivity | exact I].
  - split; [reflexivity|]. split; [reflexivity | exact I].
Qed.


(** X6.  A turn of the chat widget that is answered with a text gets the
    decoded message followed by the decoding of at most 256 new tokens,
    whatever the history shown, and has used that many draws. *)
Theorem X6_chat_turn_echoes_message_and_adds_at_most_256_tokens
    (w : World) (r : Request) (text : string) :
  fst (chat_fn w r) = Ok text ->
  exists (ids new : list token) (message_text continuation : string),
    encode (tk_vocab (tokenizer w)) (message r) = Ok ids /\
    tokenizer_decode (tokenizer w) ids true = Ok message_text /\
    tokenizer_decode (tokenizer w) new true = Ok continuation /\
    text = message_text +:+ continuation /\
    length new <= 256 /\
    cursor (snd (chat_fn w r)) = cursor w + length new.
Proof.
  unfold chat_fn, call_generate. intros Hret.
  destruct (generate_ok w (message r) (Some (chat_history r))
              (default 256%Z None) (default 0.7%float None)
              (default 0.9%float None) text Hret)
    as (ids & new & Henc & _ & _ & _ & Hlen & _ & _ & Hdec & Hcur).
  destruct (decode_app_ok (tokenizer w) ids new true text Hdec)
    as (ta & tb & Ha & Hb & Htext).
  exists ids, new, ta, tb.
  split; [exact Henc|]. split; [exact Ha|]. split; [exact Hb|].
  split; [exact Htext|]. split; [|exact Hcur].
  change (default 256%Z None) with 256%Z in Hlen. lia.
Qed.


(** X9.  The answers to a queue of [n] turns depend on the random
    generator through its next [256 * n] draws only: two worlds with the
    same handles whose generators agree on them answer alike. *)
Theorem X9_answers_determined_by_next_draws
    (w1 w2 : World) (reqs : list Request) :
  tokenizer w1 = tokenizer w2 ->
  model w1 = model w2 ->
  (forall i, i < 256 * length reqs ->
     draws w1 (cursor w1 + i) = draws w2 (cursor w2 + i)) ->
  fst (serve w1 reqs) = fst (serve w2 reqs).
Proof.
  revert w1 w2. induction reqs as [|r rs IH]; intros w1 w2 Ht Hm Hds;
    cbn [serve]; [reflexivity|].
  cbn [length] in Hds.
  destruct (chat_fn_draws w1 w2 r Ht Hm) as [Hans Hcur].
  { intros i Hi. apply Hds. lia. }
  destruct (chat_fn_frame w1 r) as (Ht1 & Hm1 & Hd1 & Hlo1 & Hhi1).
  destruct (chat_fn_frame w2 r) as (Ht2 & Hm2 & Hd2 & Hlo2 & Hhi2).
  destruct (chat_fn w1 r) as [a1 w1'], (chat_fn w2 r) as [a2 w2'].
  cbn [fst snd] in *. subst a2.
  specialize (IH w1' w2').
  destruct (serve w1' rs) as [answers1 w1''], (serve w2' rs) as [answers2 w2''].
  cbn [fst] in *. f_equal. apply IH.
  - congruence.
  - congruence.
  - intros i Hi. rewrite Hd1, Hd2.
    replace (cursor w1' + i) with (cursor w1 + (cursor w1' - cursor w1 + i))
      by lia.
    replace (cursor w2' + i) with (cursor w2 + (cursor w1' - cursor w1 + i))
      by lia.
    apply Hds. lia.
Qed.

End Extras.

(** ** The conditional properties, at concrete inputs *)



Lemma X6_witness :
  fst (chat_fn Toy.world {| message := "Hi"; chat_history := [("a", "b")] |})
    = Ok "Hi!?" /\
  exists (new : list token) (message_text continuation : string),
    tokenizer_decode (tokenizer Toy.world) (Toy.codes "Hi") true
      = Ok message_text /\
    "Hi!?" = message_text +:+ continuation /\
    length new <= 256.
Proof.
  assert (Hret : fst (chat_fn Toy.world
                        {| message := "Hi"; chat_history := [("a", "b")] |})
                 = Ok "Hi!?") by (vm_compute; reflexivity).
  split; [exact Hret|].
  destruct (X6_chat_turn_echoes_message_and_adds_at_most_256_tokens
              Toy.world {| message := "Hi"; chat_history := [("a", "b")] |}
              "Hi!?" Hret)
    as (ids & new & mt & ct & Henc & Hmt & _ & Htext & Hlen & _).
  assert (Hids : ids = Toy.codes "Hi") by (inversion Henc; reflexivity).
  subst ids. exists new, mt, ct.
  split; [exact Hmt|]. split; [exact Htext | exact Hlen].
Defined.

Lemma X9_witness :
  tokenizer Toy.world = tokenizer Toy.world_shifted /\
  model Toy.world = model Toy.world_shifted /\
  (forall i, i < 256 * length [ {| message := "Hi"; chat_history := [] |} ] ->
     draws Toy.world (cursor Toy.world + i)
       = draws Toy.world_shifted (cursor Toy.world_shifted + i)) /\
  fst (serve Toy.world [ {| message := "Hi"; chat_history := [] |} ])
    = fst (serve Toy.world_shifted [ {| message := "Hi"; chat_history := [] |} ]).
Proof.
  assert (Hds : forall i,
            i < 256 * length [ {| message := "Hi"; chat_history := [] |} ] ->
            draws Toy.world (cursor Toy.world + i)
              = draws Toy.world_shifted (cursor Toy.world_shifted + i)).
  { intros i _. cbn [draws cursor Toy.world Toy.world_shifted].
    unfold Toy.ds_shifted. f_equal. lia. }
  split; [reflexivity|]. split; [reflexivity|]. split; [exact Hds|].
  exact (X9_answers_determined_by_next_draws
           Toy.world Toy.world_shifted
           [ {| message := "Hi"; chat_history := [] |} ]
           eq_refl eq_refl Hds).
Defined.
